(** * pyuv_cffi: the Loop / Handle / Signal / Poll wrappers over libuv

    A shallow embedding of [pyuv_cffi/__init__.py].  Python objects live in a
    heap of attribute dictionaries, so that an attribute that was never
    assigned raises [AttributeError] exactly where the interpreter would.
    The methods are written in a state-and-exception monad over that heap.
    libuv itself (and the small C glue [pyuv_cffi.c]) is reached through the
    interface [LibUV]; every call through it is recorded in [ffi_log].

    The first part holds the program and the predicates used to speak about
    it, the second part the theorems.  Theorems about what the Python code
    does hold for every implementation of [LibUV]; theorems about which
    callbacks run are over the reference substrate [RefUV].

    A callback of the client is a value [VFun f]: its body is client code
    and is not run here; what it calls on the module is a statement of the
    client program like any other. *)

From stdpp Require Import gmap strings list fin_maps.

(** * Part I: the program *)

(** ** Values and objects *)

(** Pointers handed out by libuv (cdata struct pointers), identities of
    Python objects, and identities of cdata function pointers. *)
Abbreviation ptr := nat (only parsing).
Abbreviation ref := nat (only parsing).
Abbreviation cbid := nat (only parsing).

Inductive Value : Type :=
| VNone
| VNotImplemented
| VBool (b : bool)
| VInt (z : Z)
| VPtr (p : ptr)          (* cdata: uv_loop_t*, uv_signal_t*, uv_poll_t* *)
| VCallback (k : cbid)    (* cdata: the function pointer made by ffi.callback *)
| VObj (r : ref)          (* a Loop, Signal or Poll instance *)
| VFun (f : nat).         (* a Python callable of the client, by identity *)

#[global] Instance Value_eq_dec : EqDecision Value.
Proof. solve_decision. Defined.

(** Python truth value, as [if value:] and [bool(...)] compute it. *)
Definition truthy (v : Value) : bool :=
  match v with
  | VNone => false
  | VBool b => b
  | VInt z => negb (z =? 0)%Z
  | VPtr p => negb (p =? 0)
  | VNotImplemented | VCallback _ | VObj _ | VFun _ => true
  end.

Inductive Class : Type := CLoop | CSignal | CPoll.

#[global] Instance Class_eq_dec : EqDecision Class.
Proof. solve_decision. Defined.

(** An instance: its class and its [__dict__]. *)
Record PyObj : Type := mkObj { cls : Class; attrs : gmap string Value }.

Inductive PyExc : Type :=
| AttributeError (name : string)
| TypeError
| NameError.

#[global] Instance PyExc_eq_dec : EqDecision PyExc.
Proof. solve_decision. Defined.

(** ** The boundary to libuv *)

(** One entry per call made through [libuv.<name>(...)], with the arguments
    and the value that came back. *)
Inductive FFICall : Type :=
| C_uv_default_loop (res : ptr)
| C_pyuv_loop_new (res : ptr)
| C_pyuv_loop_del (h : ptr)
| C_uv_loop_alive (h : ptr) (res : Z)
| C_uv_run (h : ptr) (mode : Z) (res : Z)
| C_uv_stop (h : ptr)
| C_pyuv_signal_new (loop : ptr) (res : ptr)
| C_pyuv_signal_del (h : ptr)
| C_uv_signal_start (h : ptr) (cb : cbid) (signum : Z) (res : Z)
| C_uv_signal_stop (h : ptr) (res : Z)
| C_pyuv_poll_new (loop : ptr) (fd : Z) (res : ptr).

#[global] Instance FFICall_eq_dec : EqDecision FFICall.
Proof. solve_decision. Defined.

(** The functions [__init__.py] calls on [libuv], over a substrate state [U].
    [uv_run] also yields the callbacks libuv makes while it runs, as
    (function pointer, uv_signal_t*, signum).  [os_signal] is not a function
    of the library: it is the operating system raising a signal. *)
Class LibUV (U : Type) : Type := {
  uv_default_loop : U → ptr * U;
  pyuv_loop_new : U → ptr * U;
  pyuv_loop_del : ptr → U → U;
  uv_loop_alive : ptr → U → Z * U;
  uv_run : ptr → Z → U → (Z * list (cbid * ptr * Z)) * U;
  uv_stop : ptr → U → U;
  pyuv_signal_new : ptr → U → ptr * U;
  pyuv_signal_del : ptr → U → U;
  uv_signal_start : ptr → cbid → Z → U → Z * U;
  uv_signal_stop : ptr → U → Z * U;
  pyuv_poll_new : ptr → Z → U → ptr * U;
  os_signal : Z → U → U
}.

Definition UV_RUN_DEFAULT : Z := 0.
Definition UV_RUN_ONCE : Z := 1.

(** ** The world *)

(** [callback(self, signum)] as performed by [cb_wrapper]. *)
Record Invocation : Type := mkInv {
  inv_cb : cbid;          (* the cdata function pointer libuv called *)
  inv_callback : Value;   (* the client callable [cb_wrapper] closes over *)
  inv_self : ref;         (* the Signal [cb_wrapper] closes over *)
  inv_handle : ptr;       (* the uv_signal_t* libuv passed *)
  inv_signum : Z
}.

#[global] Instance Invocation_eq_dec : EqDecision Invocation.
Proof. solve_decision. Defined.

Record World (U : Type) : Type := mkWorld {
  heap : gmap nat PyObj;            (* Python objects by identity *)
  next_ref : ref;                   (* identity of the next object *)
  cdata : gmap nat (Value * nat);   (* ffi.callback objects: what cb_wrapper closes over *)
  next_cb : cbid;                   (* identity of the next ffi.callback object *)
  uv : U;                           (* libuv's own state *)
  ffi_log : list FFICall;           (* calls into libuv, oldest first *)
  invoked : list Invocation         (* client callbacks run, oldest first *)
}.

Arguments mkWorld {U}.
Arguments heap {U}.
Arguments next_ref {U}.
Arguments cdata {U}.
Arguments next_cb {U}.
Arguments uv {U}.
Arguments ffi_log {U}.
Arguments invoked {U}.

(** ** The monad: state of the world, and Python exceptions *)

Definition M (U A : Type) : Type := World U → (PyExc + A) * World U.

#[global] Instance M_ret U : MRet (M U) := λ A a w, (inr a, w).

#[global] Instance M_bind U : MBind (M U) := λ A B f m w,
  match m w with
  | (inr a, w') => f a w'
  | (inl e, w') => (inl e, w')
  end.

Definition raise {U A} (e : PyExc) : M U A := λ w, (inl e, w).

Section Python.
Context {U : Type} `{LibUV U}.

Definition set_heap (hp : gmap nat PyObj) (w : World U) : World U :=
  mkWorld hp (next_ref w) (cdata w) (next_cb w) (uv w) (ffi_log w) (invoked w).

(** [cls.__new__(cls)]: a fresh instance with an empty [__dict__]. *)
Definition py_new (c : Class) : M U ref := λ w,
  (inr (next_ref w),
   mkWorld (<[next_ref w := mkObj c ∅]> (heap w)) (S (next_ref w))
           (cdata w) (next_cb w) (uv w) (ffi_log w) (invoked w)).

Definition deref (r : ref) : M U PyObj := λ w,
  match heap w !! r with
  | Some o => (inr o, w)
  | None => (inl NameError, w)
  end.

Definition class_of (r : ref) : M U Class := o ← deref r; mret (cls o).

(** [obj.name] for an instance attribute. *)
Definition getattr (r : ref) (name : string) : M U Value :=
  o ← deref r;
  match attrs o !! name with
  | Some v => mret v
  | None => raise (AttributeError name)
  end.

(** [obj.name = v]. *)
Definition setattr (r : ref) (name : string) (v : Value) : M U unit := λ w,
  match heap w !! r with
  | Some o =>
      (inr tt, set_heap (<[r := mkObj (cls o) (<[name := v]> (attrs o))]> (heap w)) w)
  | None => (inl NameError, w)
  end.

(** cffi converts an argument declared as a struct pointer. *)
Definition as_ptr (v : Value) : M U ptr :=
  match v with
  | VPtr p => mret p
  | _ => raise TypeError
  end.

(** cffi converts an argument declared as [int]. *)
Definition as_int (v : Value) : M U Z :=
  match v with
  | VInt z => mret z
  | VBool b => mret (if b then 1 else 0)%Z
  | _ => raise TypeError
  end.

(** A call into libuv that returns a value. *)
Definition ffi {A} (entry : A → FFICall) (f : U → A * U) : M U A := λ w,
  let r := f (uv w) in
  (inr r.1, mkWorld (heap w) (next_ref w) (cdata w) (next_cb w) r.2
                    (ffi_log w ++ [entry r.1]) (invoked w)).

(** A call into libuv that returns void. *)
Definition ffi_void (entry : FFICall) (f : U → U) : M U unit := λ w,
  (inr tt, mkWorld (heap w) (next_ref w) (cdata w) (next_cb w) (f (uv w))
                   (ffi_log w ++ [entry]) (invoked w)).

(** [ffi.callback(<signature>, cb_wrapper)]: a new cdata function pointer;
    [cb_wrapper] closes over [callback] and [self]. *)
Definition ffi_callback (callback : Value) (self : ref) : M U cbid := λ w,
  (inr (next_cb w),
   mkWorld (heap w) (next_ref w) (<[next_cb w := (callback, self)]> (cdata w))
           (S (next_cb w)) (uv w) (ffi_log w) (invoked w)).

(** libuv calling one function pointer: [cb_wrapper(uv_signal_t, signum)]
    runs [callback(self, signum)]. *)
Definition invoke (c : cbid * ptr * Z) (w : World U) : World U :=
  let '(k, h, signum) := c in
  match cdata w !! k with
  | Some (callback, self) =>
      mkWorld (heap w) (next_ref w) (cdata w) (next_cb w) (uv w) (ffi_log w)
              (invoked w ++ [mkInv k callback self h signum])
  | None => w
  end.

Definition invoke_all (cs : list (cbid * ptr * Z)) : M U unit := λ w,
  (inr tt, foldl (λ w' c, invoke c w') w cs).

(** ** class Loop *)

Definition Loop___init__ (self : ref) : M U unit :=
  h ← ffi C_pyuv_loop_new pyuv_loop_new;
  setattr self "loop_h" (VPtr h);;
  setattr self "_loop_h_allocated" (VBool true).

(** [Loop()] *)
Definition Loop_new : M U ref :=
  self ← py_new CLoop;
  Loop___init__ self;;
  mret self.

Definition Loop_default_loop : M U ref :=
  loop ← py_new CLoop;
  h ← ffi C_uv_default_loop uv_default_loop;
  setattr loop "loop_h" (VPtr h);;
  setattr loop "loop_h_allocated" (VBool false);;
  mret loop.

Definition Loop_alive (self : ref) : M U Value :=
  v ← getattr self "loop_h";
  h ← as_ptr v;
  r ← ffi (C_uv_loop_alive h) (uv_loop_alive h);
  mret (VBool (negb (r =? 0)%Z)).

Definition Loop__free (self : ref) : M U Value :=
  a ← getattr self "_loop_h_allocated";
  if truthy a then
    v ← getattr self "loop_h";
    h ← as_ptr v;
    ffi_void (C_pyuv_loop_del h) (pyuv_loop_del h);;
    setattr self "_loop_h_allocated" (VBool false);;
    mret VNone
  else mret VNone.

Definition Loop_close (self : ref) : M U Value :=
  Loop__free self;;
  mret VNone.

Definition Loop_run (self : ref) (mode : Z) : M U Value :=
  v ← getattr self "loop_h";
  h ← as_ptr v;
  r ← ffi (λ r, C_uv_run h mode r.1) (uv_run h mode);
  invoke_all r.2;;
  mret (VInt r.1).

Definition Loop_stop (self : ref) : M U Value :=
  v ← getattr self "loop_h";
  h ← as_ptr v;
  ffi_void (C_uv_stop h) (uv_stop h);;
  mret VNone.

Definition Loop___del__ (self : ref) : M U Value :=
  Loop_close self;;
  mret VNone.

(** ** class Handle *)

Definition Handle___init__ (self : ref) : M U unit :=
  setattr self "_ref" (VBool false).

Definition Handle_ref_get (self : ref) : M U Value :=
  getattr self "_ref".

Definition Handle_ref_set (self : ref) (value : Value) : M U Value :=
  if truthy value then mret VNone else mret VNone.

(** ** class Signal(Handle) *)

Definition Signal___init__ (self : ref) (loop : ref) : M U unit :=
  Handle___init__ self;;
  setattr self "loop" (VObj loop);;
  v ← getattr loop "loop_h";
  lh ← as_ptr v;
  h ← ffi (C_pyuv_signal_new lh) (pyuv_signal_new lh);
  setattr self "sig_h" (VPtr h);;
  setattr self "_sig_h_allocated" (VBool true);;
  setattr self "_ffi_cb" VNone.

(** [Signal(loop)] *)
Definition Signal_new (loop : ref) : M U ref :=
  self ← py_new CSignal;
  Signal___init__ self loop;;
  mret self.

Definition Signal_start (self : ref) (callback : Value) (sig_num : Value) : M U Value :=
  ffi_cb ← ffi_callback callback self;
  setattr self "_ffi_cb" (VCallback ffi_cb);;
  v ← getattr self "sig_h";
  h ← as_ptr v;
  n ← as_int sig_num;
  ffi (C_uv_signal_start h ffi_cb n) (uv_signal_start h ffi_cb n);;
  mret VNone.

Definition Signal_stop (self : ref) : M U Value :=
  setattr self "_ffi_cb" VNone;;
  v ← getattr self "sig_h";
  h ← as_ptr v;
  ffi (C_uv_signal_stop h) (uv_signal_stop h);;
  mret VNone.

Definition Signal__free (self : ref) : M U Value :=
  setattr self "_ffi_cb" VNone;;
  a ← getattr self "_sig_h_allocated";
  if truthy a then
    v ← getattr self "sig_h";
    h ← as_ptr v;
    ffi_void (C_pyuv_signal_del h) (pyuv_signal_del h);;
    setattr self "_sig_h_allocated" (VBool false);;
    mret VNone
  else mret VNone.

Definition Signal___del__ (self : ref) : M U Value :=
  Signal_stop self;;
  Signal__free self;;
  mret VNone.

(** ** class Poll(Handle) *)

Definition Poll___init__ (self : ref) (loop : ref) (fd : Z) : M U unit :=
  Handle___init__ self;;
  v ← getattr loop "loop_h";
  lh ← as_ptr v;
  h ← ffi (C_pyuv_poll_new lh fd) (pyuv_poll_new lh fd);
  setattr self "_poll_handle" (VPtr h).

(** [Poll(loop, fd)] *)
Definition Poll_new (loop : ref) (fd : Z) : M U ref :=
  self ← py_new CPoll;
  Poll___init__ self loop fd;;
  mret self.

Definition Poll_start (self : ref) (events : Value) (cb : Value) : M U Value :=
  mret VNotImplemented.

Definition Poll_stop (self : ref) : M U Value :=
  mret VNotImplemented.

End Python.

(** ** Client programs *)

(** What a client can do with the module: construct, call a method, read or
    assign the public attributes.  [OsSignal] is the environment. *)
Inductive Op : Type :=
| NewLoop                             (* Loop() *)
| DefaultLoop                         (* Loop.default_loop() *)
| NewSignal (loop : ref)              (* Signal(loop) *)
| NewPoll (loop : ref) (fd : Z)       (* Poll(loop, fd) *)
| GetAlive (o : ref)                  (* o.alive *)
| CallClose (o : ref)                 (* o.close() *)
| CallRun (o : ref) (mode : Z)        (* o.run(mode) *)
| CallStart (o : ref) (a b : Value)   (* o.start(a, b) *)
| CallStop (o : ref)                  (* o.stop() *)
| CallFree (o : ref)                  (* o._free() *)
| CallDel (o : ref)                   (* o.__del__() *)
| GetRef (o : ref)                    (* o.ref *)
| SetRef (o : ref) (v : Value)        (* o.ref = v *)
| OsSignal (signum : Z).              (* a signal is raised *)

Section Client.
Context {U : Type} `{LibUV U}.

(** Attribute and method resolution by class, then the call. *)
Definition exec (op : Op) : M U Value :=
  match op with
  | NewLoop => r ← Loop_new; mret (VObj r)
  | DefaultLoop => r ← Loop_default_loop; mret (VObj r)
  | NewSignal loop => class_of loop;; r ← Signal_new loop; mret (VObj r)
  | NewPoll loop fd => class_of loop;; r ← Poll_new loop fd; mret (VObj r)
  | GetAlive o =>
      c ← class_of o;
      match c with
      | CLoop => Loop_alive o
      | _ => raise (AttributeError "alive")
      end
  | CallClose o =>
      c ← class_of o;
      match c with
      | CLoop => Loop_close o
      | _ => raise (AttributeError "close")
      end
  | CallRun o mode =>
      c ← class_of o;
      match c with
      | CLoop => Loop_run o mode
      | _ => raise (AttributeError "run")
      end
  | CallStart o a b =>
      c ← class_of o;
      match c with
      | CLoop => raise (AttributeError "start")
      | CSignal => Signal_start o a b
      | CPoll => Poll_start o a b
      end
  | CallStop o =>
      c ← class_of o;
      match c with
      | CLoop => Loop_stop o
      | CSignal => Signal_stop o
      | CPoll => Poll_stop o
      end
  | CallFree o =>
      c ← class_of o;
      match c with
      | CLoop => Loop__free o
      | CSignal => Signal__free o
      | CPoll => raise (AttributeError "_free")
      end
  | CallDel o =>
      c ← class_of o;
      match c with
      | CLoop => Loop___del__ o
      | CSignal => Signal___del__ o
      | CPoll => raise (AttributeError "__del__")
      end
  | GetRef o =>
      c ← class_of o;
      match c with
      | CLoop => getattr o "ref"
      | _ => Handle_ref_get o
      end
  | SetRef o v =>
      c ← class_of o;
      match c with
      | CLoop => setattr o "ref" v;; mret VNone
      | _ => Handle_ref_set o v
      end
  | OsSignal signum =>
      λ w, (inr VNone,
            mkWorld (heap w) (next_ref w) (cdata w) (next_cb w)
                    (os_signal signum (uv w)) (ffi_log w) (invoked w))
  end.

(** A client program: an exception ends the statement that raised it and
    the program goes on (as under [try] / [except]). *)
Definition run (ops : list Op) (w : World U) : World U :=
  foldl (λ w' op, (exec op w').2) w ops.

(** The outcomes of the statements of a program, in order. *)
Fixpoint outcomes (ops : list Op) (w : World U) : list (PyExc + Value) :=
  match ops with
  | [] => []
  | op :: ops' => (exec op w).1 :: outcomes ops' (exec op w).2
  end.

Definition empty_world (u : U) : World U := mkWorld ∅ 0 ∅ 0 u [] [].

(** What is stored under [name] in the [__dict__] of [r]. *)
Definition attr (w : World U) (r : ref) (name : string) : option Value :=
  o ← heap w !! r; attrs o !! name.

Definition is_instance (w : World U) (r : ref) (c : Class) : Prop :=
  cls <$> heap w !! r = Some c.

End Client.

(** ** A reference substrate *)

(** Modelled from the spec: libuv and the C glue [pyuv_cffi.c] are not among
    the sources, only the calls into them are.  This is the substrate the
    spec describes: [default()] "returns a process-wide singleton reactor
    resource ... never torn down" (4.1); it "is consulted for registering /
    unregistering a watch for a signal value", and for "delivering ready
    events to be dispatched" (6); registration fails for a signal value that
    is not "meaningful to the reactor substrate" (4.3); a stop "takes effect
    immediately for deliveries not yet dispatched" (5).  Addresses are never
    handed out twice.  Which signal numbers the system accepts is a
    parameter, [sig_ok]. *)
Record RefUV : Type := mkUV {
  sig_ok : Z → bool;             (* the signal numbers the system accepts *)
  fresh : ptr;                   (* the next address to hand out *)
  loops : gset nat;              (* allocated loops *)
  sig_loop : gmap nat nat;       (* allocated signal handles, with their loop *)
  polls : gmap nat (nat * Z);    (* allocated poll handles: loop and fd *)
  watch : gmap nat (nat * Z);    (* registered watches: callback and signum *)
  pending : list (nat * Z);      (* caught, not yet dispatched: handle, signum *)
  stop_flag : gset nat           (* loops asked to stop *)
}.

Definition UV_EINVAL : Z := (-22)%Z.

(** The address of the one default loop; [0] is NULL. *)
Definition default_loop_ptr : ptr := 1.

Definition uv0 (ok : Z → bool) : RefUV := mkUV ok 2 ∅ ∅ ∅ ∅ [] ∅.

(** Modelled from the spec: [pyuv_loop_new] and [pyuv_loop_del], the
    allocation and the release of a reactor resource. *)
Definition ref_loop_new (u : RefUV) : ptr * RefUV :=
  (fresh u, mkUV (sig_ok u) (S (fresh u)) ({[fresh u]} ∪ loops u) (sig_loop u)
                 (polls u) (watch u) (pending u) (stop_flag u)).

Definition ref_loop_del (h : ptr) (u : RefUV) : RefUV :=
  mkUV (sig_ok u) (fresh u) (loops u ∖ {[h]}) (sig_loop u) (polls u)
       (watch u) (pending u) (stop_flag u).

Definition set_watch (wt : gmap nat (nat * Z)) (u : RefUV) : RefUV :=
  mkUV (sig_ok u) (fresh u) (loops u) (sig_loop u) (polls u) wt (pending u)
       (stop_flag u).

(** Modelled from the spec: [uv_loop_alive].  Does the loop have a handle
    that is watching? *)
Definition ref_alive (lh : ptr) (u : RefUV) : bool :=
  existsb (λ e, bool_decide (sig_loop u !! e.1 = Some lh)) (map_to_list (watch u)).

Definition ref_status (lh : ptr) (u : RefUV) : Z :=
  if ref_alive lh u then 1%Z else 0%Z.

(** Modelled from the spec: the dispatch of one caught signal.  It leads to
    the callback of its handle if the handle still watches it. *)
Definition ref_dispatch (u : RefUV) (m : nat * Z) : option (cbid * ptr * Z) :=
  match watch u !! m.1 with
  | Some (k, signum) => if (signum =? m.2)%Z then Some (k, m.1, m.2) else None
  | None => None
  end.

Definition of_loop (lh : ptr) (u : RefUV) (m : nat * Z) : bool :=
  bool_decide (sig_loop u !! m.1 = Some lh).

(** Modelled from the spec: [uv_run], as one poll-and-dispatch phase of the
    loop [lh]: what was caught for its handles is dispatched, in every
    mode; the status tells whether a handle is still watching.  Blocking
    is not modelled. *)
Definition ref_run (lh : ptr) (mode : Z) (u : RefUV) : (Z * list (cbid * ptr * Z)) * RefUV :=
  ((ref_status lh u, omap (ref_dispatch u) (filter (λ m, of_loop lh u m) (pending u))),
   mkUV (sig_ok u) (fresh u) (loops u) (sig_loop u) (polls u) (watch u)
        (filter (λ m, negb (of_loop lh u m)) (pending u))
        (stop_flag u ∖ {[lh]})).

(** Modelled from the spec: [uv_stop]. *)
Definition ref_stop (lh : ptr) (u : RefUV) : RefUV :=
  mkUV (sig_ok u) (fresh u) (loops u) (sig_loop u) (polls u) (watch u)
       (pending u) ({[lh]} ∪ stop_flag u).

(** Modelled from the spec: [pyuv_signal_new] and [pyuv_signal_del], the
    allocation of a signal handle on a loop and its release, which also
    ends its watch. *)
Definition ref_signal_new (lh : ptr) (u : RefUV) : ptr * RefUV :=
  (fresh u, mkUV (sig_ok u) (S (fresh u)) (loops u) (<[fresh u := lh]> (sig_loop u))
                 (polls u) (watch u) (pending u) (stop_flag u)).

Definition ref_signal_del (h : ptr) (u : RefUV) : RefUV :=
  mkUV (sig_ok u) (fresh u) (loops u) (delete h (sig_loop u)) (polls u)
       (delete h (watch u)) (pending u) (stop_flag u).

(** Modelled from the spec: [uv_signal_start].  Signal number 0 is refused
    outright; a handle that already watches [signum] only has its callback
    replaced; otherwise an earlier watch of the handle is dropped and the
    new one is registered if the system accepts [signum]. *)
Definition ref_signal_start (h : ptr) (k : cbid) (signum : Z) (u : RefUV) : Z * RefUV :=
  if (signum =? 0)%Z then (UV_EINVAL, u)
  else if bool_decide (snd <$> watch u !! h = Some signum)
       then (0%Z, set_watch (<[h := (k, signum)]> (watch u)) u)
  else if sig_ok u signum
       then (0%Z, set_watch (<[h := (k, signum)]> (watch u)) u)
       else (UV_EINVAL, set_watch (delete h (watch u)) u).

(** Modelled from the spec: [uv_signal_stop] removes the watch. *)
Definition ref_signal_stop (h : ptr) (u : RefUV) : Z * RefUV :=
  (0%Z, set_watch (delete h (watch u)) u).

(** Modelled from the spec: [pyuv_poll_new]. *)
Definition ref_poll_new (lh : ptr) (fd : Z) (u : RefUV) : ptr * RefUV :=
  (fresh u, mkUV (sig_ok u) (S (fresh u)) (loops u) (sig_loop u)
                 (<[fresh u := (lh, fd)]> (polls u)) (watch u) (pending u)
                 (stop_flag u)).

(** Modelled from the spec: the system raising a signal.  It is caught once
    for every handle that watches it. *)
Definition ref_os_signal (signum : Z) (u : RefUV) : RefUV :=
  mkUV (sig_ok u) (fresh u) (loops u) (sig_loop u) (polls u) (watch u)
       (pending u ++
        omap (λ e, if (e.2.2 =? signum)%Z then Some (e.1, signum) else None)
             (map_to_list (watch u)))
       (stop_flag u).

#[global] Instance RefUV_LibUV : LibUV RefUV := {
  uv_default_loop u := (default_loop_ptr, u);
  pyuv_loop_new := ref_loop_new;
  pyuv_loop_del := ref_loop_del;
  uv_loop_alive lh u := (ref_status lh u, u);
  uv_run := ref_run;
  uv_stop := ref_stop;
  pyuv_signal_new := ref_signal_new;
  pyuv_signal_del := ref_signal_del;
  uv_signal_start := ref_signal_start;
  uv_signal_stop := ref_signal_stop;
  pyuv_poll_new := ref_poll_new;
  os_signal := ref_os_signal
}.

(** Signal numbers as on Linux: 1 to 64. *)
Definition linux_sig_ok (signum : Z) : bool := (0 <? signum)%Z && (signum <? 65)%Z.

(** ** One Signal handle: its operations and its states *)

(** The operations of a client on one Signal handle. *)
Inductive SigOp : Type :=
| SStart (callback : Value) (sig_num : Z)   (* s.start(callback, sig_num) *)
| SStop                                     (* s.stop() *)
| SClose                                    (* s._free(): the release of the handle *)
| SDel                                      (* s.__del__() *)
| SGetRef                                   (* s.ref *)
| SSetRef (v : Value).                      (* s.ref = v *)

Definition sig_op (s : ref) (op : SigOp) : Op :=
  match op with
  | SStart callback sig_num => CallStart s callback (VInt sig_num)
  | SStop => CallStop s
  | SClose => CallFree s
  | SDel => CallDel s
  | SGetRef => GetRef s
  | SSetRef v => SetRef s v
  end.

(** The states of a Signal handle as the specification names them. *)
Inductive SigState : Type := CREATED | STARTED | STOPPED | CLOSED.

#[global] Instance SigState_eq_dec : EqDecision SigState.
Proof. solve_decision. Defined.



(** What the last of [start] / [stop] / release was, which is all the code
    keeps: no method looks at an earlier release. *)
Definition code_step (st : SigState) (op : SigOp) : SigState :=
  match op with
  | SStart _ _ => STARTED
  | SStop => STOPPED
  | SClose | SDel => CLOSED
  | SGetRef | SSetRef _ => st
  end.



(** ** Predicates on outcomes and worlds *)

(** The statement returned a value: no exception was raised. *)
Definition returned {A} (r : PyExc + A) : Prop :=
  match r with
  | inr _ => True
  | inl _ => False
  end.

(** The callback libuv reaches through one function pointer. *)
Definition invocation_of (cd : gmap nat (Value * nat)) (c : cbid * ptr * Z) : option Invocation :=
  match cd !! c.1.1 with
  | Some (callback, self) => Some (mkInv c.1.1 callback self c.1.2 c.2)
  | None => None
  end.

Section Predicates.
Context {U : Type} `{LibUV U}.

(** [wp m Q w]: running [m] in [w] ends in an outcome and a world that
    satisfy [Q].  Every [m] is a total function, so this is a statement
    about the one run there is. *)
Definition wp {A} (m : M U A) (Q : PyExc + A → World U → Prop) (w : World U) : Prop :=
  Q (m w).1 (m w).2.

(** A Signal whose [__init__] ran to its end. *)
Definition signal_obj (w : World U) (s : ref) (h : ptr) : Prop :=
  is_instance w s CSignal ∧
  attr w s "sig_h" = Some (VPtr h) ∧
  (∃ b, attr w s "_sig_h_allocated" = Some (VBool b)) ∧
  is_Some (attr w s "_ref").

(** The handle keeps a callback closure. *)
Definition has_callback (w : World U) (s : ref) : Prop :=
  ∃ k, attr w s "_ffi_cb" = Some (VCallback k).

(** [h] is a Signal or a Poll whose [_ref] holds [False]. *)
Definition ref_false (w : World U) (h : ref) : Prop :=
  h < next_ref w ∧
  ∃ o, heap w !! h = Some o ∧ cls o ≠ CLoop ∧ attrs o !! "_ref" = Some (VBool false).

End Predicates.

(** ** Worlds over the reference substrate *)

(** The worlds a client program can bring about. *)
Definition reachable (ok : Z → bool) (ops0 : list Op) : World RefUV :=
  run ops0 (empty_world (uv0 ok)).








(** ** Concrete worlds, and three claims as they are written *)

(** A Loop (object 0, at address 2) and a Signal on it (object 1, at
    address 3), over the reference substrate. *)
Definition w_loop : World RefUV := reachable linux_sig_ok [NewLoop].
Definition w_sig : World RefUV := reachable linux_sig_ok [NewLoop; NewSignal 0].
Definition w_poll : World RefUV := reachable linux_sig_ok [NewLoop; NewPoll 0 5].



(** C6 as written: [Signal(loop)] after [loop.close()] raises. *)
Definition closed_loop_rejected : Prop :=
  ∀ (w : World RefUV) loop,
    is_instance w loop CLoop → loop < next_ref w →
    ∃ e, (exec (NewSignal loop) (exec (CallClose loop) w).2).1 = inl e.

(** ** Release calls, and the subject of a statement *)

(** The three ways a client releases a Loop. *)
Inductive LoopRelease : Type :=
| LClose    (* loop.close() *)
| LFree     (* loop._free() *)
| LDel.     (* loop.__del__() *)

Definition loop_release (loop : ref) (r : LoopRelease) : Op :=
  match r with
  | LClose => CallClose loop
  | LFree => CallFree loop
  | LDel => CallDel loop
  end.

(** The pointers handed to [pyuv_signal_del], in the order of the calls. *)
Definition signal_dels (l : list FFICall) : list ptr :=
  omap (λ c, match c with C_pyuv_signal_del h => Some h | _ => None end) l.

(** [_free] and [__del__] are the operations that release a Signal. *)
Definition is_release (op : SigOp) : bool :=
  match op with
  | SClose | SDel => true
  | _ => false
  end.

(** The object a statement reads, assigns to or calls a method of. *)
Definition subject (op : Op) : option ref :=
  match op with
  | NewLoop | DefaultLoop | NewSignal _ | NewPoll _ _ | OsSignal _ => None
  | GetAlive o | CallClose o | CallRun o _ | CallStart o _ _ | CallStop o
  | CallFree o | CallDel o | GetRef o | SetRef o _ => Some o
  end.

(** The attributes that bind an object to libuv and to its loop. *)
Definition binding (name : string) : bool :=
  bool_decide (name ∈ ["loop_h"; "sig_h"; "loop"; "_poll_handle"]).

(** cffi takes [v] for an argument declared as [int]. *)
Definition is_int (v : Value) : bool :=
  match v with
  | VInt _ | VBool _ => true
  | _ => false
  end.

(** What one statement does to the objects that exist: it writes to no
    object but its subject, and to no attribute that binds an object to
    libuv or to its loop. *)
Definition heap_effect {U} (op : Op) (w w' : World U) : Prop :=
  next_ref w ≤ next_ref w' ∧
  (∀ r, r < next_ref w → subject op ≠ Some r → heap w' !! r = heap w !! r) ∧
  (∀ r name, r < next_ref w → binding name = true →
     attr w' r name = attr w r name ∧ cls <$> heap w' !! r = cls <$> heap w !! r).


(** * Part II: theorems *)

(** ** Reasoning about the methods *)

Section Wp.
Context {U : Type} `{LibUV U}.
Implicit Types (w : World U).

Lemma wp_bind {A B} (m : M U A) (f : A → M U B) Q w :
  wp (m ≫= f) Q w =
  wp m (λ r w', match r with
                | inr a => wp (f a) Q w'
                | inl e => Q (inl e) w'
                end) w.
Proof. unfold wp, mbind, M_bind. destruct (m w) as [[e|a] w']; reflexivity. Qed.

Lemma wp_ret {A} (a : A) Q w : wp (mret a) Q w = Q (inr a) w.
Proof. reflexivity. Qed.

Lemma wp_raise {A} e (Q : PyExc + A → World U → Prop) w :
  wp (raise e) Q w = Q (inl e) w.
Proof. reflexivity. Qed.

Lemma wp_deref r Q w :
  wp (deref r) Q w =
  match heap w !! r with
  | Some o => Q (inr o) w
  | None => Q (inl NameError) w
  end.
Proof. unfold wp, deref. destruct (heap w !! r); reflexivity. Qed.

Lemma wp_setattr r name v Q w :
  wp (setattr r name v) Q w =
  match heap w !! r with
  | Some o =>
      Q (inr tt)
        (mkWorld (<[r := mkObj (cls o) (<[name := v]> (attrs o))]> (heap w))
                 (next_ref w) (cdata w) (next_cb w) (uv w) (ffi_log w) (invoked w))
  | None => Q (inl NameError) w
  end.
Proof. unfold wp, setattr. destruct (heap w !! r); reflexivity. Qed.

Lemma wp_py_new c Q w :
  wp (py_new c) Q w =
  Q (inr (next_ref w))
    (mkWorld (<[next_ref w := mkObj c ∅]> (heap w)) (S (next_ref w))
             (cdata w) (next_cb w) (uv w) (ffi_log w) (invoked w)).
Proof. reflexivity. Qed.

Lemma wp_ffi {A} (entry : A → FFICall) (f : U → A * U) Q w :
  wp (ffi entry f) Q w =
  Q (inr (f (uv w)).1)
    (mkWorld (heap w) (next_ref w) (cdata w) (next_cb w) (f (uv w)).2
             (ffi_log w ++ [entry (f (uv w)).1]) (invoked w)).
Proof. reflexivity. Qed.

Lemma wp_ffi_void entry (f : U → U) Q w :
  wp (ffi_void entry f) Q w =
  Q (inr tt)
    (mkWorld (heap w) (next_ref w) (cdata w) (next_cb w) (f (uv w))
             (ffi_log w ++ [entry]) (invoked w)).
Proof. reflexivity. Qed.

Lemma wp_ffi_callback callback self Q w :
  wp (ffi_callback callback self) Q w =
  Q (inr (next_cb w))
    (mkWorld (heap w) (next_ref w) (<[next_cb w := (callback, self)]> (cdata w))
             (S (next_cb w)) (uv w) (ffi_log w) (invoked w)).
Proof. reflexivity. Qed.

Lemma invoke_all_world cs (w : World U) :
  foldl (λ w' c, invoke c w') w cs =
  mkWorld (heap w) (next_ref w) (cdata w) (next_cb w) (uv w) (ffi_log w)
          (invoked w ++ omap (invocation_of (cdata w)) cs).
Proof.
  revert w. induction cs as [|[[k h] signum] cs IH]; intros w.
  - destruct w. simpl. by rewrite app_nil_r.
  - simpl. rewrite IH. unfold invoke, invocation_of. simpl.
    destruct (cdata w !! k) as [[callback self]|]; simpl; [|done].
    by rewrite <- app_assoc.
Qed.

Lemma wp_invoke_all cs Q w :
  wp (invoke_all cs) Q w =
  Q (inr tt)
    (mkWorld (heap w) (next_ref w) (cdata w) (next_cb w) (uv w) (ffi_log w)
             (invoked w ++ omap (invocation_of (cdata w)) cs)).
Proof. unfold wp, invoke_all. simpl. by rewrite invoke_all_world. Qed.

Lemma wp_os_signal signum (Q : PyExc + Value → World U → Prop) w :
  wp (exec (OsSignal signum)) Q w =
  Q (inr VNone)
    (mkWorld (heap w) (next_ref w) (cdata w) (next_cb w)
             (os_signal signum (uv w)) (ffi_log w) (invoked w)).
Proof. reflexivity. Qed.

(** From a [wp] with a determined outcome to the equation of the run. *)
Lemma wp_run {A} (m : M U A) w r w' :
  wp m (λ r0 w0, r0 = r ∧ w0 = w') w → m w = (r, w').
Proof. unfold wp. destruct (m w). simpl. by intros [-> ->]. Qed.

(** An object and what [attr] and [is_instance] say about it. *)
Lemma attr_lookup (w : World U) r o name :
  heap w !! r = Some o → attr w r name = attrs o !! name.
Proof. unfold attr. by intros ->. Qed.

Lemma is_instance_lookup (w : World U) r c :
  is_instance w r c → ∃ o, heap w !! r = Some o ∧ cls o = c.
Proof.
  unfold is_instance. destruct (heap w !! r) as [o|]; [|done].
  simpl. intros [= <-]. by exists o.
Qed.

End Wp.

(** Settle the scrutinee [x] of a match: a lookup in a map that was just
    written, a fact at hand, or else both cases. *)
Ltac wp_case x :=
  first [ rewrite lookup_insert_eq
        | rewrite lookup_insert_ne by (first [done | lia])
        | match goal with E : x = _ |- _ => rewrite E end
        | destruct x eqn:? ].

(** One step of symbolic execution of a goal [wp m Q w]. *)
Ltac wp_step :=
  lazymatch goal with
  | |- wp (mbind _ _) _ _ => rewrite wp_bind
  | |- wp (mret _) _ _ => rewrite wp_ret
  | |- wp (raise _) _ _ => rewrite wp_raise
  | |- wp (deref _) _ _ => rewrite wp_deref
  | |- wp (setattr _ _ _) _ _ => rewrite wp_setattr
  | |- wp (py_new _) _ _ => rewrite wp_py_new
  | |- wp (ffi _ _) _ _ => rewrite wp_ffi
  | |- wp (ffi_void _ _) _ _ => rewrite wp_ffi_void
  | |- wp (ffi_callback _ _) _ _ => rewrite wp_ffi_callback
  | |- wp (invoke_all _) _ _ => rewrite wp_invoke_all
  | |- wp (exec (OsSignal _)) _ _ => rewrite wp_os_signal
  | |- wp (if ?b then _ else _) _ _ => wp_case b
  | |- wp (match ?x with _ => _ end) _ _ => wp_case x
  | |- wp ?m ?Q ?w => let m' := eval red in m in change (wp m' Q w)
  | |- match ?x with _ => _ end => wp_case x
  end;
  cbn [heap next_ref cdata next_cb uv ffi_log invoked cls attrs fst snd truthy].

Ltac wp_go := repeat wp_step.

(** Goals about [attr] and [is_instance] in a world that is written out. *)
Ltac attr_go :=
  unfold attr, is_instance in *;
  cbn [heap next_ref cdata next_cb uv ffi_log invoked cls attrs fst snd] in *;
  simplify_map_eq; try done; try congruence.

(** ** Loop: close *)

Section Loops.
Context {U : Type} `{LibUV U}.

Lemma Loop_new_spec (w : World U) :
  wp Loop_new (λ r w',
    r = inr (next_ref w) ∧
    is_instance w' (next_ref w) CLoop ∧
    attr w' (next_ref w) "loop_h" = Some (VPtr (pyuv_loop_new (uv w)).1) ∧
    attr w' (next_ref w) "_loop_h_allocated" = Some (VBool true) ∧
    ffi_log w' = ffi_log w ++ [C_pyuv_loop_new (pyuv_loop_new (uv w)).1]) w.
Proof. wp_go. repeat split; attr_go. Qed.

Lemma Loop_default_loop_spec (w : World U) :
  wp Loop_default_loop (λ r w',
    r = inr (next_ref w) ∧
    is_instance w' (next_ref w) CLoop ∧
    attr w' (next_ref w) "loop_h" = Some (VPtr (uv_default_loop (uv w)).1) ∧
    attr w' (next_ref w) "loop_h_allocated" = Some (VBool false) ∧
    attr w' (next_ref w) "_loop_h_allocated" = None ∧
    ffi_log w' = ffi_log w ++ [C_uv_default_loop (uv_default_loop (uv w)).1]) w.
Proof. wp_go. repeat split; attr_go. Qed.

(** [close()] on a loop whose flag is set: one [pyuv_loop_del], flag cleared. *)
Lemma close_owned (w : World U) loop h :
  is_instance w loop CLoop →
  attr w loop "loop_h" = Some (VPtr h) →
  attr w loop "_loop_h_allocated" = Some (VBool true) →
  wp (exec (CallClose loop)) (λ r w',
    r = inr VNone ∧
    is_instance w' loop CLoop ∧
    attr w' loop "loop_h" = Some (VPtr h) ∧
    attr w' loop "_loop_h_allocated" = Some (VBool false) ∧
    ffi_log w' = ffi_log w ++ [C_pyuv_loop_del h]) w.
Proof.
  intros (o & Ho & Hc)%is_instance_lookup Hh Ha.
  rewrite (attr_lookup _ _ _ _ Ho) in Hh. rewrite (attr_lookup _ _ _ _ Ho) in Ha.
  wp_go. repeat split; attr_go.
Qed.

(** [close()] on a loop whose flag is clear changes nothing. *)
Lemma close_released (w : World U) loop :
  is_instance w loop CLoop →
  attr w loop "_loop_h_allocated" = Some (VBool false) →
  exec (CallClose loop) w = (inr VNone, w).
Proof.
  intros (o & Ho & Hc)%is_instance_lookup Ha.
  rewrite (attr_lookup _ _ _ _ Ho) in Ha.
  apply wp_run. wp_go. done.
Qed.

Lemma run_cons op ops (w : World U) : run (op :: ops) w = run ops (exec op w).2.
Proof. reflexivity. Qed.

Lemma outcomes_cons op ops (w : World U) :
  outcomes (op :: ops) w = (exec op w).1 :: outcomes ops (exec op w).2.
Proof. reflexivity. Qed.

Lemma closes_released (w : World U) loop n :
  is_instance w loop CLoop →
  attr w loop "_loop_h_allocated" = Some (VBool false) →
  outcomes (replicate n (CallClose loop)) w = replicate n (inr VNone) ∧
  run (replicate n (CallClose loop)) w = w.
Proof.
  intros Hi Ha. induction n as [|n [IH1 IH2]]; [done|].
  change (replicate (S n) (CallClose loop)) with (CallClose loop :: replicate n (CallClose loop)).
  rewrite run_cons, outcomes_cons, (close_released _ _ Hi Ha). simpl.
  by rewrite IH1, IH2.
Qed.

(** C2. A loop made by [Loop()] is released by its first [close()], and by
    that one only: however many more [close()] calls follow, each returns
    [None] and the calls into libuv are the allocation and one
    [pyuv_loop_del]. *)
Theorem loop_close_releases_once (w : World U) (n : nat) :
  let loop := next_ref w in
  let h := (pyuv_loop_new (uv w)).1 in
  let w1 := (Loop_new w).2 in
  (Loop_new w).1 = inr loop ∧
  outcomes (replicate (S n) (CallClose loop)) w1 = replicate (S n) (inr VNone) ∧
  ffi_log (run (replicate (S n) (CallClose loop)) w1) =
    ffi_log w ++ [C_pyuv_loop_new h; C_pyuv_loop_del h].
Proof.
  intros loop h w1.
  destruct (Loop_new_spec w) as (Hr & Hi & Hh & Ha & Hl).
  fold loop h w1 in Hi, Hh, Ha, Hl.
  destruct (close_owned w1 loop h Hi Hh Ha) as (Hr' & Hi' & _ & Ha' & Hl').
  destruct (closes_released _ loop n Hi' Ha') as [Ho Hw].
  split; [done|].
  change (replicate (S n) (CallClose loop)) with (CallClose loop :: replicate n (CallClose loop)).
  rewrite run_cons, outcomes_cons, Hr', Ho, Hw, Hl', Hl.
  split; [done|]. by rewrite <- app_assoc.
Qed.

(** C1. [close()] on a loop obtained from [Loop.default_loop()] raises
    [AttributeError]: [default_loop] stores the flag under
    [loop_h_allocated], [_free] reads [_loop_h_allocated].  Nothing is
    released and the world is left as it was. *)
Theorem default_loop_close_raises (w : World U) :
  let loop := next_ref w in
  let w1 := (Loop_default_loop w).2 in
  (Loop_default_loop w).1 = inr loop ∧
  exec (CallClose loop) w1 = (inl (AttributeError "_loop_h_allocated"), w1).
Proof.
  intros loop w1.
  destruct (Loop_default_loop_spec w) as (Hr & Hi & _ & _ & Ha & _).
  fold loop w1 in Hi, Ha. split; [done|].
  destruct (is_instance_lookup _ _ _ Hi) as (o & Ho & Hc).
  rewrite (attr_lookup _ _ _ _ Ho) in Ha.
  apply wp_run. wp_go. done.
Qed.

End Loops.

(** ** Signal: construction, start, stop, release *)

Section Signals.
Context {U : Type} `{LibUV U}.

Lemma signal_obj_lookup (w : World U) s h :
  signal_obj w s h →
  ∃ o b r, heap w !! s = Some o ∧ cls o = CSignal ∧
    attrs o !! "sig_h" = Some (VPtr h) ∧
    attrs o !! "_sig_h_allocated" = Some (VBool b) ∧
    attrs o !! "_ref" = Some r.
Proof.
  intros ((o & Ho & Hc)%is_instance_lookup & Hh & [b Hb] & [r Hr]).
  rewrite (attr_lookup _ _ _ _ Ho) in Hh.
  rewrite (attr_lookup _ _ _ _ Ho) in Hb.
  rewrite (attr_lookup _ _ _ _ Ho) in Hr.
  by exists o, b, r.
Qed.

(** [Signal(loop)] on any Loop object that has its [loop_h]: no check of
    the loop's state is made, the pointer goes to [pyuv_signal_new]. *)
Lemma Signal_new_spec (w : World U) loop lh :
  loop < next_ref w →
  attr w loop "loop_h" = Some (VPtr lh) →
  wp (exec (NewSignal loop)) (λ r w',
    let h := (pyuv_signal_new lh (uv w)).1 in
    r = inr (VObj (next_ref w)) ∧
    signal_obj w' (next_ref w) h ∧
    attr w' (next_ref w) "_ffi_cb" = Some VNone ∧
    attr w' (next_ref w) "_sig_h_allocated" = Some (VBool true) ∧
    attr w' (next_ref w) "loop" = Some (VObj loop) ∧
    next_ref w' = S (next_ref w) ∧
    ffi_log w' = ffi_log w ++ [C_pyuv_signal_new lh h]) w.
Proof.
  intros Hlt Hh. unfold attr in Hh.
  destruct (heap w !! loop) as [o|] eqn:Ho; [|done]. simpl in Hh.
  assert (next_ref w ≠ loop) by lia.
  wp_go. unfold signal_obj.
  repeat split; try done; try (by eexists; attr_go); attr_go.
Qed.

(** What each operation on a Signal does to the handle: it stays a
    well-formed Signal, it raises nothing, and [_ffi_cb] is set by [start]
    and cleared by [stop] and by the release. *)
Lemma sig_op_spec (w : World U) s h op :
  signal_obj w s h →
  wp (exec (sig_op s op)) (λ r w',
    returned r ∧
    signal_obj w' s h ∧
    attr w' s "_ffi_cb" =
      match op with
      | SStart _ _ => Some (VCallback (next_cb w))
      | SStop | SClose | SDel => Some VNone
      | SGetRef | SSetRef _ => attr w s "_ffi_cb"
      end) w.
Proof.
  intros (o & b & r & Ho & Hc & Hh & Hb & Hr)%signal_obj_lookup.
  unfold signal_obj.
  destruct op; simpl sig_op; wp_go; try destruct b; wp_go;
    repeat split; try done;
    lazymatch goal with
    | |- is_Some _ => by eexists; attr_go
    | |- ∃ _, _ => first [by exists true; attr_go | by exists false; attr_go]
    | |- _ => attr_go
    end.
Qed.

(** [_ffi_cb] follows the last of [start] / [stop] / release, also past a
    release. *)
Lemma callback_iff_last_start (w : World U) s h ops st :
  signal_obj w s h →
  (has_callback w s ↔ st = STARTED) →
  has_callback (run (map (sig_op s) ops) w) s ↔ foldl code_step st ops = STARTED.
Proof.
  revert w st. induction ops as [|op ops IH]; intros w st Hs Hcb; [done|].
  rewrite fmap_cons, run_cons. simpl foldl.
  destruct (sig_op_spec w s h op Hs) as (_ & Hs' & Ha).
  apply IH; [done|]. unfold has_callback in *. rewrite Ha.
  destruct op; simpl; try done; split; try done; eauto; by intros [? ?].
Qed.




(** [close()] leaves [loop_h] where it is, whatever the flag says. *)
Lemma close_keeps_handle (w : World U) loop lh :
  is_instance w loop CLoop →
  attr w loop "loop_h" = Some (VPtr lh) →
  wp (exec (CallClose loop)) (λ _ w',
    attr w' loop "loop_h" = Some (VPtr lh) ∧ next_ref w' = next_ref w) w.
Proof.
  intros (o & Ho & Hc)%is_instance_lookup Hh.
  rewrite (attr_lookup _ _ _ _ Ho) in Hh.
  wp_go; split; attr_go.
Qed.

(** C6, as the code has it.  [Signal(loop)] after [loop.close()] raises
    nothing: the constructor does not look at the state of the loop, hands
    its [loop_h] to [pyuv_signal_new] and returns a Signal. *)
Theorem signal_on_closed_loop (w : World U) loop lh :
  is_instance w loop CLoop →
  loop < next_ref w →
  attr w loop "loop_h" = Some (VPtr lh) →
  let w1 := (exec (CallClose loop) w).2 in
  let h := (pyuv_signal_new lh (uv w1)).1 in
  let r := exec (NewSignal loop) w1 in
  r.1 = inr (VObj (next_ref w1)) ∧
  signal_obj r.2 (next_ref w1) h ∧
  ffi_log r.2 = ffi_log w1 ++ [C_pyuv_signal_new lh h].
Proof.
  intros Hi Hlt Hh w1 h r.
  destruct (close_keeps_handle w loop lh Hi Hh) as [Hh1 Hn]. fold w1 in Hh1, Hn.
  assert (Hlt1 : loop < next_ref w1) by lia.
  destruct (Signal_new_spec w1 loop lh Hlt1 Hh1) as (Hr & Hs & _ & _ & _ & _ & Hl).
  done.
Qed.


End Signals.

(** ** Handle: the ref property; Poll *)

Section Handles.
Context {U : Type} `{LibUV U}.

Ltac ref_false_go :=
  lazymatch goal with
  | Hinv : ref_false _ ?h |- ref_false _ ?h =>
      let Hlt := fresh "Hlt" in
      let oh := fresh "oh" in
      let Hh := fresh "Hh" in
      let Hc := fresh "Hc" in
      let Hr := fresh "Hr" in
      destruct Hinv as (Hlt & oh & Hh & Hc & Hr);
      split; [cbn [next_ref]; lia|];
      cbn [heap];
      repeat (rewrite lookup_insert; case_decide; subst);
      simplify_eq;
      first [ by eexists; split; [done|]; split; [done|]; simplify_map_eq
            | lia
            | congruence ]
  end.

(** No statement of a client changes the [_ref] of an existing handle. *)
Lemma exec_ref_false op (w : World U) h :
  ref_false w h → wp (exec op) (λ _ w', ref_false w' h) w.
Proof.
  intros Hinv. destruct op; wp_go; try done; ref_false_go.
Qed.

Lemma run_ref_false ops (w : World U) h :
  ref_false w h → ref_false (run ops w) h.
Proof.
  revert w. induction ops as [|op ops IH]; intros w Hinv; [done|].
  rewrite run_cons. apply IH. by apply exec_ref_false.
Qed.

(** A handle that [Signal(loop)] or [Poll(loop, fd)] returns has [_ref]
    set to [False] by [Handle.__init__]. *)
Lemma NewSignal_ref_false (w : World U) loop :
  wp (exec (NewSignal loop)) (λ r w', ∀ h, r = inr (VObj h) → ref_false w' h) w.
Proof.
  wp_go; intros h' [=]; subst; (split; [cbn [next_ref]; lia|]);
    cbn [heap]; (eexists; split; [by rewrite lookup_insert_eq|]);
    by simplify_map_eq.
Qed.

Lemma NewPoll_ref_false (w : World U) loop fd :
  wp (exec (NewPoll loop fd)) (λ r w', ∀ h, r = inr (VObj h) → ref_false w' h) w.
Proof.
  wp_go; intros h' [=]; subst; (split; [cbn [next_ref]; lia|]);
    cbn [heap]; (eexists; split; [by rewrite lookup_insert_eq|]);
    by simplify_map_eq.
Qed.

Lemma ref_false_get (w : World U) h :
  ref_false w h → exec (GetRef h) w = (inr (VBool false), w).
Proof.
  intros (_ & o & Ho & Hc & Hr). apply wp_run. wp_go; done.
Qed.

Lemma ref_false_set (w : World U) h v :
  ref_false w h → exec (SetRef h v) w = (inr VNone, w).
Proof.
  intros (_ & o & Ho & Hc & Hr). apply wp_run. wp_go; done.
Qed.

(** C10.  The [ref] of a Signal or Poll reads [False] when the handle is
    made and after every program, assignments to [ref] included: the
    setter leaves the world as it is, so what was assigned is not read
    back. *)
Theorem ref_always_false (w w1 : World U) (ctor : Op) (h : ref) (ops : list Op) (v : Value) :
  (∃ loop, ctor = NewSignal loop) ∨ (∃ loop fd, ctor = NewPoll loop fd) →
  exec ctor w = (inr (VObj h), w1) →
  exec (GetRef h) w1 = (inr (VBool false), w1) ∧
  exec (GetRef h) (run ops w1) = (inr (VBool false), run ops w1) ∧
  exec (SetRef h v) (run ops w1) = (inr VNone, run ops w1) ∧
  (exec (GetRef h) (run (ops ++ [SetRef h v]) w1)).1 = inr (VBool false).
Proof.
  intros Hctor Hrun.
  assert (Hinv : ref_false w1 h).
  { destruct Hctor as [[loop ->]|(loop & fd & ->)].
    - pose proof (NewSignal_ref_false w loop) as Hw. unfold wp in Hw.
      rewrite Hrun in Hw. by apply Hw.
    - pose proof (NewPoll_ref_false w loop fd) as Hw. unfold wp in Hw.
      rewrite Hrun in Hw. by apply Hw. }
  split; [by apply ref_false_get|].
  split; [by apply ref_false_get, run_ref_false|].
  split; [by apply ref_false_set, run_ref_false|].
  by rewrite (ref_false_get _ h (run_ref_false _ _ _ Hinv)).
Qed.

(** C7.  On a Poll, [start] and [stop] return [NotImplemented] for all
    arguments and leave the world as it is: no call into libuv is made, no
    watch is registered or removed.  [NotImplemented] is not the [None]
    that a [start] or [stop] that did its work returns. *)
Theorem poll_start_stop_unsupported (w : World U) p events cb :
  is_instance w p CPoll →
  exec (CallStart p events cb) w = (inr VNotImplemented, w) ∧
  exec (CallStop p) w = (inr VNotImplemented, w) ∧
  VNotImplemented ≠ VNone.
Proof.
  intros (o & Ho & Hc)%is_instance_lookup.
  split; [|split; [|done]]; apply wp_run; wp_go; done.
Qed.

End Handles.

(** ** Over the reference substrate: which callbacks run *)

Section Reference.

Implicit Types (w : World RefUV) (u : RefUV).


















End Reference.

(** ** Over the reference substrate: one handle, restarted *)

Section Restart.

Implicit Types (w : World RefUV) (u : RefUV).
















End Restart.

(** ** The default loop *)

Section Default.
Context {U : Type} `{LibUV U}.

(** C8.  Over a substrate whose [uv_default_loop] answers with one pointer
    [d] in every state, [Loop.default_loop()] returns a Loop that wraps
    [d] each time it is called, whatever program runs between the calls. *)
Theorem default_loop_same (d : ptr) (w : World U) (ops : list Op) :
  (∀ u, (uv_default_loop u).1 = d) →
  let r1 := Loop_default_loop w in
  let w1 := run ops r1.2 in
  let r2 := Loop_default_loop w1 in
  r1.1 = inr (next_ref w) ∧
  r2.1 = inr (next_ref w1) ∧
  attr r1.2 (next_ref w) "loop_h" = Some (VPtr d) ∧
  attr r2.2 (next_ref w1) "loop_h" = Some (VPtr d).
Proof.
  intros Hd r1 w1 r2.
  destruct (Loop_default_loop_spec w) as (Hr1 & _ & Hh1 & _).
  destruct (Loop_default_loop_spec w1) as (Hr2 & _ & Hh2 & _).
  rewrite Hd in Hh1, Hh2. done.
Qed.

End Default.

(** ** Concrete runs *)

Lemma w_loop_obj :
  is_instance w_loop 0 CLoop ∧ 0 < next_ref w_loop ∧
  attr w_loop 0 "loop_h" = Some (VPtr 2).
Proof. repeat split; vm_compute; lia. Qed.

Lemma w_sig_obj : signal_obj w_sig 1 3.
Proof. repeat split; try by vm_compute. by exists true. by exists (VBool false). Qed.

(** The scenario of the module's own [run()]: one signal, one callback. *)
Example signal_delivered_once :
  invoked (run [CallStart 1 (VFun 7) (VInt 2); OsSignal 2; CallRun 0 UV_RUN_DEFAULT;
                CallStop 1; OsSignal 2; CallRun 0 UV_RUN_DEFAULT] w_sig)
  = [mkInv 0 (VFun 7) 1 3 2].
Proof. by vm_compute. Qed.

(** After a restart the new callback is the one that runs. *)
Example restart_delivers_new_callback :
  invoked (run [CallStart 1 (VFun 7) (VInt 2); CallStop 1; CallStart 1 (VFun 8) (VInt 2);
                OsSignal 2; CallRun 0 UV_RUN_DEFAULT] w_sig)
  = [mkInv 1 (VFun 8) 1 3 2].
Proof. by vm_compute. Qed.

(** C1 at a concrete world. *)

Example default_loop_close_outcomes :
  outcomes [DefaultLoop; CallClose 0; DefaultLoop; CallClose 1]
           (empty_world (uv0 linux_sig_ok))
  = [inr (VObj 0); inl (AttributeError "_loop_h_allocated");
     inr (VObj 1); inl (AttributeError "_loop_h_allocated")].
Proof. by vm_compute. Qed.

(** C3: where the claim as written fails, and an instance of the theorem. *)



(** C5: where the claim as written fails, and an instance of the theorem. *)



(** C6: where the claim as written fails, and an instance of the theorem. *)

Lemma closed_loop_accepted : ¬ closed_loop_rejected.
Proof.
  intros Hc.
  destruct (Hc w_loop 0) as [e He]; [by vm_compute|vm_compute; lia|].
  vm_compute in He. discriminate He.
Qed.

Lemma signal_on_closed_loop_witness :
  (exec (CallClose 0) w_loop).1 = inr VNone ∧
  (exec (NewSignal 0) (exec (CallClose 0) w_loop).2).1 = inr (VObj 1).
Proof.
  split; [by vm_compute|].
  destruct w_loop_obj as (Hi & Hlt & Hh).
  exact (proj1 (signal_on_closed_loop w_loop 0 2 Hi Hlt Hh)).
Defined.

(** Instances of the other theorems. *)

Lemma poll_start_stop_unsupported_witness :
  exec (CallStart 1 (VInt 1) (VFun 7)) w_poll = (inr VNotImplemented, w_poll).
Proof.
  apply (poll_start_stop_unsupported w_poll 1 (VInt 1) (VFun 7)). by vm_compute.
Defined.

Lemma ref_always_false_witness :
  (exec (GetRef 1) (run [SetRef 1 (VBool true); CallStart 1 (VFun 7) (VInt 2)] w_sig)).1
  = inr (VBool false).
Proof.
  refine (f_equal fst (proj1 (proj2
    (ref_always_false w_loop w_sig (NewSignal 0) 1
       [SetRef 1 (VBool true); CallStart 1 (VFun 7) (VInt 2)] (VBool true) _ _)))).
  - left. by exists 0.
  - by vm_compute.
Defined.

Lemma default_loop_same_witness :
  attr (Loop_default_loop w_sig).2 (next_ref w_sig) "loop_h" = Some (VPtr default_loop_ptr).
Proof.
  refine (proj1 (proj2 (proj2
    (default_loop_same default_loop_ptr w_sig [CallClose 2; NewLoop] _)))).
  intros u. reflexivity.
Defined.



(** * Part III: further properties of the methods *)

(** ** Loop: every way of releasing *)

Section LoopRelease.
Context {U : Type} `{LibUV U}.

(** A release call on a loop whose flag is set: one [pyuv_loop_del], flag
    cleared, [None] returned. *)
Lemma release_owned (w : World U) loop h r :
  is_instance w loop CLoop →
  attr w loop "loop_h" = Some (VPtr h) →
  attr w loop "_loop_h_allocated" = Some (VBool true) →
  wp (exec (loop_release loop r)) (λ res w',
    res = inr VNone ∧
    is_instance w' loop CLoop ∧
    attr w' loop "_loop_h_allocated" = Some (VBool false) ∧
    ffi_log w' = ffi_log w ++ [C_pyuv_loop_del h]) w.
Proof.
  intros (o & Ho & Hc)%is_instance_lookup Hh Ha.
  rewrite (attr_lookup _ _ _ _ Ho) in Hh. rewrite (attr_lookup _ _ _ _ Ho) in Ha.
  destruct r; simpl loop_release; wp_go; repeat split; attr_go.
Qed.

Lemma release_released (w : World U) loop r :
  is_instance w loop CLoop →
  attr w loop "_loop_h_allocated" = Some (VBool false) →
  exec (loop_release loop r) w = (inr VNone, w).
Proof.
  intros (o & Ho & Hc)%is_instance_lookup Ha.
  rewrite (attr_lookup _ _ _ _ Ho) in Ha.
  destruct r; simpl loop_release; apply wp_run; wp_go; done.
Qed.

Lemma releases_released (w : World U) loop rs :
  is_instance w loop CLoop →
  attr w loop "_loop_h_allocated" = Some (VBool false) →
  outcomes (map (loop_release loop) rs) w = replicate (length rs) (inr VNone) ∧
  run (map (loop_release loop) rs) w = w.
Proof.
  intros Hi Ha. induction rs as [|r rs [IH1 IH2]]; [done|].
  cbn [map]; rewrite run_cons, outcomes_cons, (release_released _ _ r Hi Ha).
  simpl. by rewrite IH1, IH2.
Qed.

(** X1.  A loop made by [Loop()] is released exactly once by any non-empty
    sequence of [close()], [_free()] and [__del__()] calls, in any order:
    every call returns [None] and [pyuv_loop_del] is called once, with the
    pointer [pyuv_loop_new] returned. *)
Theorem loop_released_once (w : World U) (rs : list LoopRelease) :
  let loop := next_ref w in
  let h := (pyuv_loop_new (uv w)).1 in
  let w1 := (Loop_new w).2 in
  let prog := map (loop_release loop) rs in
  outcomes prog w1 = replicate (length rs) (inr VNone) ∧
  ffi_log (run prog w1) =
    ffi_log w1 ++ match rs with [] => [] | _ => [C_pyuv_loop_del h] end.
Proof.
  intros loop h w1 prog.
  destruct (Loop_new_spec w) as (_ & Hi & Hh & Ha & _).
  fold loop h w1 in Hi, Hh, Ha.
  destruct rs as [|r rs].
  { split; [done|]. by rewrite app_nil_r. }
  unfold prog. cbn [map]; rewrite run_cons, outcomes_cons.
  destruct (release_owned w1 loop h r Hi Hh Ha) as (Hr & Hi' & Ha' & Hl).
  destruct (releases_released _ loop rs Hi' Ha') as [Ho Hw].
  by rewrite Hr, Ho, Hw.
Qed.

(** A release call on a loop from [default_loop()] raises. *)
Lemma release_default (w : World U) loop r :
  is_instance w loop CLoop →
  attr w loop "_loop_h_allocated" = None →
  exec (loop_release loop r) w = (inl (AttributeError "_loop_h_allocated"), w).
Proof.
  intros (o & Ho & Hc)%is_instance_lookup Ha.
  rewrite (attr_lookup _ _ _ _ Ho) in Ha.
  destruct r; simpl loop_release; apply wp_run; wp_go; done.
Qed.

(** X2.  On a loop obtained from [Loop.default_loop()], every [close()],
    [_free()] and [__del__()] raises [AttributeError] and changes nothing,
    however many are made: the default loop is never handed to
    [pyuv_loop_del]. *)
Theorem default_loop_never_released (w : World U) (rs : list LoopRelease) :
  let loop := next_ref w in
  let w1 := (Loop_default_loop w).2 in
  let prog := map (loop_release loop) rs in
  outcomes prog w1 = replicate (length rs) (inl (AttributeError "_loop_h_allocated")) ∧
  run prog w1 = w1.
Proof.
  intros loop w1 prog.
  destruct (Loop_default_loop_spec w) as (_ & Hi & _ & _ & Ha & _).
  fold loop w1 in Hi, Ha. unfold prog.
  induction rs as [|r rs [IH1 IH2]]; [done|].
  cbn [map]; rewrite run_cons, outcomes_cons, (release_default _ _ r Hi Ha).
  simpl. by rewrite IH1, IH2.
Qed.


End LoopRelease.

(** ** Signal: release, errors at construction and at start *)

Section SignalRelease.
Context {U : Type} `{LibUV U}.

(** The calls into libuv of one operation on a Signal: [pyuv_signal_del]
    is among them exactly when the operation releases and the flag is
    set, and the flag is cleared by a release. *)
Lemma sig_op_dels (w : World U) s h b op :
  signal_obj w s h →
  attr w s "_sig_h_allocated" = Some (VBool b) →
  wp (exec (sig_op s op)) (λ _ w',
    ∃ new, ffi_log w' = ffi_log w ++ new ∧
      signal_dels new = (if b && is_release op then [h] else []) ∧
      attr w' s "_sig_h_allocated" = Some (VBool (b && negb (is_release op)))) w.
Proof.
  intros (o & b' & r & Ho & Hc & Hh & Hb' & Hr)%signal_obj_lookup Hb.
  rewrite (attr_lookup _ _ _ _ Ho), Hb' in Hb. injection Hb as ->.
  destruct op, b; simpl sig_op; wp_go;
    first [ exists []; rewrite app_nil_r; split; [done|]; split; [done|]; by attr_go
          | rewrite <- ?app_assoc; eexists; split; [reflexivity|];
            split; [done|]; by attr_go ].
Qed.

(** X4.  Over every sequence of operations on a Signal made by
    [Signal(loop)], [pyuv_signal_del] is called exactly once if the
    sequence holds a [_free()] or [__del__()], and not at all otherwise;
    the call is on the handle of the Signal. *)
Theorem signal_released_once (w : World U) s h ops :
  signal_obj w s h →
  attr w s "_sig_h_allocated" = Some (VBool true) →
  let w' := run (map (sig_op s) ops) w in
  ∃ new, ffi_log w' = ffi_log w ++ new ∧
    signal_dels new = (if existsb is_release ops then [h] else []) ∧
    attr w' s "_sig_h_allocated" = Some (VBool (negb (existsb is_release ops))).
Proof.
  intros Hs Ha.
  enough (Hgen : ∀ b (w0 : World U), signal_obj w0 s h →
    attr w0 s "_sig_h_allocated" = Some (VBool b) →
    ∃ new, ffi_log (run (map (sig_op s) ops) w0) = ffi_log w0 ++ new ∧
      signal_dels new = (if b && existsb is_release ops then [h] else []) ∧
      attr (run (map (sig_op s) ops) w0) s "_sig_h_allocated"
        = Some (VBool (b && negb (existsb is_release ops)))).
  { exact (Hgen true w Hs Ha). }
  clear w Hs Ha. induction ops as [|op ops IH]; intros b w Hs Ha.
  { exists []. rewrite app_nil_r, andb_false_r, andb_true_r. done. }
  cbn [map existsb]. rewrite run_cons.
  destruct (sig_op_spec w s h op Hs) as (_ & Hs1 & _).
  destruct (sig_op_dels w s h b op Hs Ha) as (new1 & Hl1 & Hd1 & Ha1).
  destruct (IH _ _ Hs1 Ha1) as (new2 & Hl2 & Hd2 & Ha2).
  exists (new1 ++ new2). rewrite Hl2, Hl1, <- app_assoc. split; [done|].
  unfold signal_dels in *. rewrite omap_app, Hd1, Hd2, Ha2.
  by destruct b, (is_release op), (existsb is_release ops).
Qed.

(** X5.  [__del__()] on a Signal first ends the watch and then releases:
    [uv_signal_stop] is called, then [pyuv_signal_del] if the handle was
    not released before.  On a released Signal [uv_signal_stop] is still
    called, with the pointer that was released. *)
Theorem signal_del_order (w : World U) s h b :
  signal_obj w s h →
  attr w s "_sig_h_allocated" = Some (VBool b) →
  let r := exec (CallDel s) w in
  r.1 = inr VNone ∧
  attr r.2 s "_ffi_cb" = Some VNone ∧
  attr r.2 s "_sig_h_allocated" = Some (VBool false) ∧
  ffi_log r.2 =
    ffi_log w ++ C_uv_signal_stop h (uv_signal_stop h (uv w)).1
              :: (if b then [C_pyuv_signal_del h] else []).
Proof.
  intros (o & b' & r0 & Ho & Hc & Hh & Hb' & Hr)%signal_obj_lookup Hb r.
  rewrite (attr_lookup _ _ _ _ Ho), Hb' in Hb. injection Hb as ->.
  change (wp (exec (CallDel s)) (λ res w',
    res = inr VNone ∧ attr w' s "_ffi_cb" = Some VNone ∧
    attr w' s "_sig_h_allocated" = Some (VBool false) ∧
    ffi_log w' = ffi_log w ++ C_uv_signal_stop h (uv_signal_stop h (uv w)).1
                   :: (if b then [C_pyuv_signal_del h] else [])) w).
  destruct b; wp_go; rewrite <- ?app_assoc; repeat split; attr_go.
Qed.

Lemma stop_spec (w : World U) s h :
  signal_obj w s h →
  wp (exec (CallStop s)) (λ r w',
    r = inr VNone ∧ signal_obj w' s h ∧
    attr w' s "_ffi_cb" = Some VNone ∧
    ffi_log w' = ffi_log w ++ [C_uv_signal_stop h (uv_signal_stop h (uv w)).1]) w.
Proof.
  intros (o & b & r0 & Ho & Hc & Hh & Hb & Hr)%signal_obj_lookup.
  unfold signal_obj. wp_go.
  repeat split; try done;
    lazymatch goal with
    | |- is_Some _ => by eexists; attr_go
    | |- ∃ _, _ => by exists b; attr_go
    | |- _ => attr_go
    end.
Qed.

(** X6.  [stop()] never raises on a Signal, started or not, and can be
    repeated: each call returns [None], leaves no callback on the handle
    and makes one call of [uv_signal_stop] on its pointer. *)
Theorem signal_stop_repeated (w : World U) s h n :
  signal_obj w s h →
  let prog := replicate n (CallStop s) in
  outcomes prog w = replicate n (inr VNone) ∧
  (0 < n → attr (run prog w) s "_ffi_cb" = Some VNone) ∧
  ∃ new, ffi_log (run prog w) = ffi_log w ++ new ∧ length new = n ∧
    Forall (λ c, ∃ rc, c = C_uv_signal_stop h rc) new.
Proof.
  intros Hs prog. unfold prog. clear prog.
  revert w Hs. induction n as [|n IH]; intros w Hs.
  { split; [done|]. split; [lia|]. exists []. by rewrite app_nil_r. }
  change (replicate (S n) (CallStop s)) with (CallStop s :: replicate n (CallStop s)).
  rewrite run_cons, outcomes_cons.
  destruct (stop_spec w s h Hs) as (Hr & Hs1 & Ha1 & Hl1).
  destruct (IH _ Hs1) as (Ho & Hcb & new & Hl & Hlen & Hall).
  rewrite Hr, Ho. split; [done|]. split.
  - intros _. destruct n as [|n]; [done|]. apply Hcb. lia.
  - eexists (C_uv_signal_stop h _ :: new). rewrite Hl, Hl1, <- app_assoc.
    split; [done|]. split; [simpl; lia|]. constructor; [by eexists|done].
Qed.

(** X7.  [start] stores the callback before it calls libuv.  With a
    [sig_num] that cffi does not take for an [int] the call raises
    [TypeError] before libuv is reached, and the handle is left with a
    callback that no watch knows of. *)
Theorem signal_start_type_error (w : World U) s h callback sig_num :
  signal_obj w s h →
  is_int sig_num = false →
  let r := exec (CallStart s callback sig_num) w in
  r.1 = inl TypeError ∧
  attr r.2 s "_ffi_cb" = Some (VCallback (next_cb w)) ∧
  ffi_log r.2 = ffi_log w ∧
  uv r.2 = uv w.
Proof.
  intros (o & b & r0 & Ho & Hc & Hh & Hb & Hr)%signal_obj_lookup Hint r.
  change (wp (exec (CallStart s callback sig_num)) (λ res w',
    res = inl TypeError ∧ attr w' s "_ffi_cb" = Some (VCallback (next_cb w)) ∧
    ffi_log w' = ffi_log w ∧ uv w' = uv w) w).
  destruct sig_num; try done; wp_go; repeat split; attr_go.
Qed.

(** X8.  A handle cannot be built on an object that has no [loop_h], such
    as another handle: [Signal(x)] and [Poll(x, fd)] raise
    [AttributeError] without a call into libuv, and [x] is left as it
    was.  The object under construction exists by then, with [_ref] set
    and no handle. *)
Theorem handle_on_non_loop (w : World U) x fd :
  x < next_ref w →
  is_Some (heap w !! x) →
  attr w x "loop_h" = None →
  let rs := exec (NewSignal x) w in
  let rp := exec (NewPoll x fd) w in
  rs.1 = inl (AttributeError "loop_h") ∧
  rp.1 = inl (AttributeError "loop_h") ∧
  ffi_log rs.2 = ffi_log w ∧ uv rs.2 = uv w ∧
  ffi_log rp.2 = ffi_log w ∧ uv rp.2 = uv w ∧
  heap rs.2 !! x = heap w !! x ∧
  heap rp.2 !! x = heap w !! x ∧
  attr rs.2 (next_ref w) "_ref" = Some (VBool false) ∧
  attr rs.2 (next_ref w) "sig_h" = None ∧
  attr rp.2 (next_ref w) "_poll_handle" = None.
Proof.
  intros Hlt [o Ho] Ha rs rp.
  rewrite (attr_lookup _ _ _ _ Ho) in Ha.
  assert (Hne : next_ref w ≠ x) by lia.
  assert (Hs : wp (exec (NewSignal x)) (λ res w',
    res = inl (AttributeError "loop_h") ∧ ffi_log w' = ffi_log w ∧ uv w' = uv w ∧
    heap w' !! x = heap w !! x ∧
    attr w' (next_ref w) "_ref" = Some (VBool false) ∧
    attr w' (next_ref w) "sig_h" = None) w).
  { wp_go. repeat split; attr_go. }
  assert (Hp : wp (exec (NewPoll x fd)) (λ res w',
    res = inl (AttributeError "loop_h") ∧ ffi_log w' = ffi_log w ∧ uv w' = uv w ∧
    heap w' !! x = heap w !! x ∧
    attr w' (next_ref w) "_poll_handle" = None) w).
  { wp_go. repeat split; attr_go. }
  destruct Hs as (? & ? & ? & ? & ? & ?), Hp as (? & ? & ? & ? & ?).
  by repeat split.
Qed.

End SignalRelease.

(** ** What a statement leaves alone *)

Section Frame.
Context {U : Type} `{LibUV U}.

Lemma poll_op_inert (w : World U) p op :
  is_instance w p CPoll → subject op = Some p → (exec op w).2 = w.
Proof.
  intros (o & Ho & Hc)%is_instance_lookup Hsub.
  change (wp (exec op) (λ _ w', w' = w) w).
  destruct op; simpl in Hsub; try done; injection Hsub as ->; wp_go; done.
Qed.

(** X9.  Nothing a client calls on a Poll changes anything: [start] and
    [stop] do nothing, there is no [close], [_free] or [__del__], and the
    [ref] setter is empty.  So the handle that [pyuv_poll_new] allocated
    is never released. *)
Theorem poll_inert (w : World U) p ops :
  is_instance w p CPoll →
  Forall (λ op, subject op = Some p) ops →
  run ops w = w.
Proof.
  intros Hi Hops. induction Hops as [|op ops Hop _ IH]; [done|].
  by rewrite run_cons, (poll_op_inert w p op Hi Hop).
Qed.

Ltac frame_go :=
  let x := fresh "x" in
  let Hx := fresh "Hx" in
  let Hsub := fresh "Hsub" in
  intros x Hx Hsub; simpl in Hsub;
  repeat (rewrite lookup_insert_ne by (first [lia | congruence]));
  done.

Ltac binding_cases Hb :=
  repeat (apply elem_of_cons in Hb as [->|Hb]; [by simplify_map_eq|]);
  by apply elem_of_nil in Hb.

Ltac binding_go :=
  let x := fresh "x" in
  let name := fresh "name" in
  let Hx := fresh "Hx" in
  let Hb := fresh "Hb" in
  intros x name Hx Hb;
  apply bool_decide_eq_true in Hb;
  unfold attr; cbn [heap];
  repeat (rewrite lookup_insert; case_decide; subst);
  try lia;
  repeat match goal with
  | E : heap _ !! _ = Some _ |- _ => rewrite E
  end;
  simpl;
  (split; [binding_cases Hb|done]).

Ltac heap_effect_go :=
  unfold heap_effect;
  cbn [heap next_ref cdata next_cb uv ffi_log invoked];
  split; [lia|];
  split; [frame_go|binding_go].

Lemma exec_heap_effect op (w : World U) : wp (exec op) (λ _ w', heap_effect op w w') w.
Proof.
  destruct op; wp_go; heap_effect_go.
Qed.

Lemma run_heap_frame ops (w : World U) r :
  r < next_ref w →
  r < next_ref (run ops w) ∧
  (Forall (λ op, subject op ≠ Some r) ops → heap (run ops w) !! r = heap w !! r) ∧
  (∀ name, binding name = true →
     attr (run ops w) r name = attr w r name ∧
     cls <$> heap (run ops w) !! r = cls <$> heap w !! r).
Proof.
  revert w. induction ops as [|op ops IH]; intros w Hr; [done|].
  rewrite run_cons.
  destruct (exec_heap_effect op w) as (Hn & Hf & Hb).
  assert (Hr1 : r < next_ref (exec op w).2) by lia.
  destruct (IH _ Hr1) as (Hn' & Hf' & Hb').
  split; [done|]. split.
  - intros [Hop Hops]%Forall_cons. rewrite (Hf' Hops). by apply Hf.
  - intros name Hname. destruct (Hb' name Hname) as [-> ->]. by apply Hb.
Qed.


(** X11.  What binds an object to libuv and to its loop is written by the
    constructors only: over any program, every object keeps its class and
    its [loop_h], [sig_h], [loop] and [_poll_handle]. *)
Theorem binding_kept (w : World U) r name ops :
  r < next_ref w →
  binding name = true →
  attr (run ops w) r name = attr w r name ∧
  cls <$> heap (run ops w) !! r = cls <$> heap w !! r.
Proof. intros Hr Hname. by apply (run_heap_frame ops w r Hr). Qed.

End Frame.

(** ** Over the reference substrate: whose callback runs *)

Section Owner.

Implicit Types (w : World RefUV) (u : RefUV).





End Owner.

(** ** Start and stop, as a round trip *)

Section RoundTrip.
Context {U : Type} `{LibUV U}.


End RoundTrip.

(** ** Instances *)


Lemma w_sig_allocated : attr w_sig 1 "_sig_h_allocated" = Some (VBool true).
Proof. by vm_compute. Qed.

Lemma signal_released_once_witness :
  let ops := [SStart (VFun 7) 2; SClose; SStop; SDel; SClose] in
  ∃ new, ffi_log (run (map (sig_op 1) ops) w_sig) = ffi_log w_sig ++ new ∧
         signal_dels new = [3].
Proof.
  intros ops.
  destruct (signal_released_once w_sig 1 3 ops w_sig_obj w_sig_allocated)
    as (new & Hl & Hd & _).
  exists new. split; [exact Hl|exact Hd].
Defined.

Lemma signal_del_order_witness :
  ffi_log (exec (CallDel 1) w_sig).2 =
    ffi_log w_sig ++ [C_uv_signal_stop 3 0; C_pyuv_signal_del 3].
Proof.
  destruct (signal_del_order w_sig 1 3 true w_sig_obj w_sig_allocated)
    as (_ & _ & _ & Hl).
  exact Hl.
Defined.

Lemma signal_stop_repeated_witness :
  outcomes (replicate 3 (CallStop 1)) w_sig = replicate 3 (inr VNone).
Proof.
  exact (proj1 (signal_stop_repeated w_sig 1 3 3 w_sig_obj)).
Defined.

Lemma signal_start_type_error_witness :
  (exec (CallStart 1 (VFun 7) VNone) w_sig).1 = inl TypeError ∧
  attr (exec (CallStart 1 (VFun 7) VNone) w_sig).2 1 "_ffi_cb" = Some (VCallback 0).
Proof.
  destruct (signal_start_type_error w_sig 1 3 (VFun 7) VNone w_sig_obj eq_refl)
    as (Hr & Ha & _).
  split; [exact Hr|exact Ha].
Defined.

Lemma handle_on_non_loop_witness :
  (exec (NewSignal 1) w_sig).1 = inl (AttributeError "loop_h") ∧
  (exec (NewPoll 1 5) w_sig).1 = inl (AttributeError "loop_h").
Proof.
  assert (H1 : 1 < next_ref w_sig) by (vm_compute; lia).
  assert (H2 : is_Some (heap w_sig !! 1)) by (by eexists; vm_compute).
  assert (H3 : attr w_sig 1 "loop_h" = None) by (by vm_compute).
  destruct (handle_on_non_loop w_sig 1 5 H1 H2 H3) as (Hs & Hp & _).
  split; [exact Hs|exact Hp].
Defined.

Lemma poll_inert_witness :
  run [CallStart 1 (VInt 1) (VFun 7); CallClose 1; SetRef 1 (VBool true); CallStop 1] w_poll
  = w_poll.
Proof.
  apply (poll_inert w_poll 1); [by vm_compute|].
  repeat constructor.
Defined.


Lemma binding_kept_witness :
  attr (run [CallStart 1 (VFun 7) (VInt 2); CallDel 1; CallClose 0] w_sig) 1 "sig_h"
  = attr w_sig 1 "sig_h".
Proof.
  refine (proj1 (binding_kept w_sig 1 "sig_h" _ _ _)); [vm_compute; lia|done].
Defined.


